(** * allennlp/training/trainer_base.py

    A shallow embedding of [TrainerBase]: its constructor, [_move_to_gpu],
    [train] and the [from_params] factory, and the properties of these
    four methods. *)

From Stdlib Require Import ZArith String List Lia.
From stdpp Require Import base option list strings gmap.

Set Warnings "-register-all".

Open Scope string_scope.
Open Scope list_scope.
Open Scope Z_scope.

(** ** Python objects, exceptions and results *)

Module Py.

(** Objects are identified by their position in the store. *)
Definition loc := nat.

(** The values a configuration or a device argument can hold.  Lists are
    kept by value; dictionaries are references into the store, because
    [from_params] mutates one through an alias.  Floats are left out. *)
Inductive pyval : Type :=
| PNone
| PBool (b : bool)
| PInt (z : Z)
| PStr (s : string)
| PList (l : list pyval)
| PRef (l : loc).

(** Exceptions.  A formatted message is kept as its template and the
    arguments of [format]. *)
Inductive exn : Type :=
| ConfigurationError (template : string) (args : list pyval)
| AssertionError (msg : string)
| NotImplementedError
| IndexError
| AttributeError
| TypeError
| OtherError (name : string).

Inductive result (A : Type) : Type :=
| Returns (a : A)
| Raises (e : exn).
Arguments Returns {A} a.
Arguments Raises {A} e.

Definition is_ConfigurationError (e : exn) : bool :=
  match e with ConfigurationError _ _ => true | _ => false end.

(** [isinstance(v, int)]: [bool] is a subclass of [int]. *)
Definition isinstance_int (v : pyval) : bool :=
  match v with PInt _ | PBool _ => true | _ => false end.

(** [isinstance(v, list)] *)
Definition isinstance_list (v : pyval) : bool :=
  match v with PList _ => true | _ => false end.

(** [v != z] for an int literal [z]; [True] and [False] compare as 1 and 0,
    every other kind of value differs from an int. *)
Definition ne_int (v : pyval) (z : Z) : bool :=
  match v with
  | PInt z' => negb (z' =? z)
  | PBool b => negb (Z.b2z b =? z)
  | _ => true
  end.

(** [v == s] for a string literal [s]. *)
Definition eq_str (v : pyval) (s : string) : bool :=
  match v with
  | PStr s' => bool_decide (s' = s)
  | _ => false
  end.

End Py.
Import Py.

(** ** The constructor, [_move_to_gpu] and [train] *)

Module Trainer_base.

(** The instance attributes set by [__init__]. *)
Record TrainerBase : Type := mkTrainerBase {
  _serialization_dir : string;
  _multiple_gpu : bool;
  _cuda_devices : list pyval;
  _allocation_dict : option (gmap string Z)
}.

Definition data_parallel_warning : string :=
  "Data Parallel Multiple GPU support is experimental not recommended for use. In some cases it may lead to incorrect results or undefined behavior.".

(** [allocation_dict is None or len(allocation_dict) == 0] *)
Definition no_allocation (allocation_dict : option (gmap string Z)) : bool :=
  match allocation_dict with
  | None => true
  | Some d => (size d =? 0)%nat
  end.

(** Lines 38-39: the type check on [cuda_device]. *)
Definition check_cuda_device_type (cuda_device : pyval) : result unit :=
  if negb (isinstance_int cuda_device) && negb (isinstance_list cuda_device)
  then Raises (ConfigurationError
                 "Expected an int or list for cuda_device, got {}" [cuda_device])
  else Returns tt.

(** Lines 41-61: the attributes chosen from [cuda_device] and
    [allocation_dict], with the warnings logged on the way.  Asserts are
    enabled. *)
Definition configure_gpus (serialization_dir : string) (cuda_device : pyval)
    (allocation_dict : option (gmap string Z))
  : result TrainerBase * list string :=
  match cuda_device with
  | PList devices =>
      if no_allocation allocation_dict
      then (Returns (mkTrainerBase serialization_dir true devices None),
            [data_parallel_warning])
      else (Returns (mkTrainerBase serialization_dir false devices allocation_dict),
            [])
  | _ =>
      if no_allocation allocation_dict
      then (Returns (mkTrainerBase serialization_dir false [cuda_device] None), [])
      else (Raises (AssertionError
                      "Should not specify GPU Allocation if only one GPU!"), [])
  end.

Section Methods.

(** [allennlp.common.checks.check_for_gpu] is imported and not defined
    in this module: it either returns or raises. *)
Variable check_for_gpu : pyval -> result unit.

(** [TrainerBase.__init__]: the outcome and the warnings logged. *)
Definition __init__ (serialization_dir : string) (cuda_device : pyval)
    (allocation_dict : option (gmap string Z))
  : result TrainerBase * list string :=
  match check_for_gpu cuda_device with
  | Raises e => (Raises e, [])
  | Returns _ =>
      match check_cuda_device_type cuda_device with
      | Raises e => (Raises e, [])
      | Returns _ => configure_gpus serialization_dir cuda_device allocation_dict
      end
  end.

(** The model class and its [cuda] method belong to the framework. *)
Variable Model : Type.
Variable cuda : Model -> pyval -> result Model.

(** [TrainerBase._move_to_gpu]: the result, and the trainer after the
    call. *)
Definition _move_to_gpu (self : TrainerBase) (model : Model)
  : result Model * TrainerBase :=
  match _cuda_devices self with
  | [] => (Raises IndexError, self)
  | device :: _ =>
      if ne_int device (-1)
      then (cuda model device, self)
      else (Returns model, self)
  end.

(** [TrainerBase.train] *)
Definition train (self : TrainerBase) : result (gmap string pyval) :=
  Raises NotImplementedError.

End Methods.

Arguments _move_to_gpu {Model}.

End Trainer_base.

(** ** The store of dictionaries and the [Params] methods *)

Module Store.

Abbreviation dict := (gmap string pyval).
Abbreviation store := (list (gmap string pyval)).

(** A computation reads and updates the store, and returns or raises; the
    updates made before an exception stay. *)
Definition M (A : Type) : Type := store -> result A * store.

#[export] Instance M_ret : MRet M := λ A a h, (Returns a, h).

#[export] Instance M_bind : MBind M := λ A B f m h,
  match m h with
  | (Returns a, h') => f a h'
  | (Raises e, h') => (Raises e, h')
  end.

Definition raise {A : Type} (e : exn) : M A := λ h, (Raises e, h).

Definition lift {A : Type} (r : result A) : M A := λ h, (r, h).

(** The dictionary display [{}]: a new object at the end of the store. *)
Definition new_dict : M pyval := λ h, (Returns (PRef (length h)), h ++ [∅]).

(** Reading a reference that the store does not hold. *)
Definition dangling : exn := OtherError "SystemError".

(** [allennlp.common.Params] is imported and not defined in this module.
    A [Params] object is taken as the reference to the dictionary it wraps,
    with the mapping methods [from_params] calls on it: [get(key, default)]
    hands out the stored value itself, not a copy, so that a dictionary
    value is shared with the caller, or [default] when the key is missing. *)
Definition Params_get (self : loc) (key : string) (dflt : pyval) : M pyval :=
  λ h, match h !! self with
       | Some d => (Returns (default dflt (d !! key)), h)
       | None => (Raises dangling, h)
       end.

(** [obj.pop(key, default)]: on a dictionary the key is removed and its
    value returned, or [default] when it is missing; a list has a [pop] of
    one argument; the other values have no [pop]. *)
Definition pop (obj : pyval) (key : string) (dflt : pyval) : M pyval :=
  match obj with
  | PRef l =>
      λ h, match h !! l with
           | Some d =>
               match d !! key with
               | Some v => (Returns v, <[l := delete key d]> h)
               | None => (Returns dflt, h)
               end
           | None => (Raises dangling, h)
           end
  | PList _ => raise TypeError
  | _ => raise AttributeError
  end.

End Store.
Import Store.

(** ** The factory [from_params] *)

(** The named tuple [TrainerPieces] of [allennlp.training.trainer], over the
    framework's classes for models, iterators and datasets. *)
Module Pieces.

Record TrainerPieces (Model Iterator Dataset : Type) : Type := mkTrainerPieces {
  model : Model;
  iterator : Iterator;
  train_dataset : Dataset;
  validation_dataset : Dataset;
  test_dataset : Dataset;
  validation_iterator : Iterator;
  params : loc
}.
Arguments mkTrainerPieces {Model Iterator Dataset}.
Arguments model {Model Iterator Dataset}.
Arguments iterator {Model Iterator Dataset}.
Arguments train_dataset {Model Iterator Dataset}.
Arguments validation_dataset {Model Iterator Dataset}.
Arguments test_dataset {Model Iterator Dataset}.
Arguments validation_iterator {Model Iterator Dataset}.
Arguments params {Model Iterator Dataset}.

End Pieces.

Module Factory.

Section Collaborators.

(** The classes of [allennlp.training.trainer] and of the framework. *)
Variables Trainer Model Iterator Dataset : Type.

Abbreviation TrainerPieces := (Pieces.TrainerPieces Model Iterator Dataset).

(** [TrainerPieces.from_params(params, serialization_dir, recover)] *)
Variable TrainerPieces_from_params : loc -> string -> bool -> M TrainerPieces.

(** [Trainer.from_params(model, serialization_dir, iterator, train_data,
    validation_data, params, validation_iterator)] *)
Variable Trainer_from_params :
  Model -> string -> Iterator -> Dataset -> Dataset -> loc -> Iterator -> M Trainer.

(** The registry of [Registrable]: [by_name] finds the class registered
    under a name or raises, and each class has its own [from_params]. *)
Variable TrainerClass : Type.
Variable by_name : pyval -> result TrainerClass.
Variable class_from_params : TrainerClass -> loc -> string -> bool -> M Trainer.

(** Lines 85-94: the branch that keeps the old behaviour. *)
Definition default_from_params (params : loc) (serialization_dir : string)
    (recover : bool) : M Trainer :=
  pieces ← TrainerPieces_from_params params serialization_dir recover;
  Trainer_from_params (Pieces.model pieces) serialization_dir
    (Pieces.iterator pieces) (Pieces.train_dataset pieces)
    (Pieces.validation_dataset pieces) (Pieces.params pieces)
    (Pieces.validation_iterator pieces).

(** Line 96: the branch through the registry. *)
Definition registered_from_params (typ3 : pyval) (params : loc)
    (serialization_dir : string) (recover : bool) : M Trainer :=
  cls ← lift (by_name typ3);
  class_from_params cls params serialization_dir recover.

(** [TrainerBase.from_params]; its [cls] argument is not used. *)
Definition from_params (params : loc) (serialization_dir : string)
    (recover : bool) : M Trainer :=
  empty ← new_dict;
  trainer ← Params_get params "trainer" empty;
  typ3 ← pop trainer "type" (PStr "default");
  if eq_str typ3 "default"
  then default_from_params params serialization_dir recover
  else registered_from_params typ3 params serialization_dir recover.

End Collaborators.

Arguments default_from_params {Trainer Model Iterator Dataset}.
Arguments registered_from_params {Trainer TrainerClass}.
Arguments from_params {Trainer Model Iterator Dataset} _ _ {TrainerClass}.

(** The [from_params] of a registered subclass that defines none: the
    class method above, found by inheritance.  The class it is called on is
    the unused [cls]; [inner] is the [from_params] of the classes it may
    reach through the registry in its turn. *)
Definition inherited_from_params {Trainer Model Iterator Dataset TrainerClass : Type}
    (TrainerPieces_from_params :
       loc -> string -> bool -> M (Pieces.TrainerPieces Model Iterator Dataset))
    (Trainer_from_params :
       Model -> string -> Iterator -> Dataset -> Dataset -> loc -> Iterator ->
       M Trainer)
    (by_name : pyval -> result TrainerClass)
    (inner : TrainerClass -> loc -> string -> bool -> M Trainer)
  : TrainerClass -> loc -> string -> bool -> M Trainer :=
  λ _ params serialization_dir recover,
    from_params TrainerPieces_from_params Trainer_from_params by_name inner
      params serialization_dir recover.

End Factory.

(** ** Sample inputs *)

Module Sample.

(** A [check_for_gpu] on a machine that has every device asked for. *)
Definition accept_devices : pyval -> result unit := λ _, Returns tt.

(** A [check_for_gpu] on a machine with no GPU, which compares a device
    index with 0: an index from 0 up is refused with a
    [ConfigurationError], a string cannot be compared with an int, [None]
    and a list pass. *)
Definition no_gpu_check : pyval -> result unit :=
  λ device,
    match device with
    | PInt z =>
        if 0 <=? z
        then Raises (ConfigurationError
                       "Experiment specified a GPU but none is available" [])
        else Returns tt
    | PBool _ =>
        Raises (ConfigurationError
                  "Experiment specified a GPU but none is available" [])
    | PStr _ => Raises TypeError
    | _ => Returns tt
    end.

(** A model class whose [cuda] records the device it was moved to. *)
Definition placed_on : list pyval -> pyval -> result (list pyval) :=
  λ model device, Returns (device :: model).

Definition allocation : gmap string Z := {[ "encoder" := 0; "decoder" := 1 ]}.

(** The configuration
    [{"model": "lstm", "trainer": {"type": "callback", "num_epochs": 3}}]:
    the outer dictionary at 0, the trainer's at 1. *)
Definition trainer_config : gmap string pyval :=
  {[ "type" := PStr "callback"; "num_epochs" := PInt 3 ]}.

Definition config : list (gmap string pyval) :=
  [ {[ "model" := PStr "lstm"; "trainer" := PRef 1%nat ]}; trainer_config ].

(** The same configuration without a trainer type, and without a trainer. *)
Definition untyped_config : list (gmap string pyval) :=
  [ {[ "model" := PStr "lstm"; "trainer" := PRef 1%nat ]};
    {[ "num_epochs" := PInt 3 ]} ].

Definition bare_config : list (gmap string pyval) :=
  [ {[ "model" := PStr "lstm" ]} ].

(** A trainer type spelled out as ["default"], and a trainer entry that is
    a string. *)
Definition default_config : list (gmap string pyval) :=
  [ {[ "model" := PStr "lstm"; "trainer" := PRef 1%nat ]};
    {[ "type" := PStr "default"; "num_epochs" := PInt 3 ]} ].

Definition scalar_config : list (gmap string pyval) :=
  [ {[ "model" := PStr "lstm"; "trainer" := PStr "callback" ]} ].

(** Collaborators that only report how they were called. *)
Definition pieces_of : loc -> string -> bool -> M (Pieces.TrainerPieces unit unit unit) :=
  λ params _ _, mret (Pieces.mkTrainerPieces tt tt tt tt tt tt params).

Definition trainer_of
  : unit -> string -> unit -> unit -> unit -> loc -> unit -> M string :=
  λ _ serialization_dir _ _ _ _ _, mret ("Trainer:" +:+ serialization_dir).

Definition registry : pyval -> result string :=
  λ name,
    match name with
    | PStr "callback" => Returns "CallbackTrainer"
    | _ => Raises (ConfigurationError "{} is not a registered name for {}"
                     [name; PStr "TrainerBase"])
    end.

Definition registered_trainer_of : string -> loc -> string -> bool -> M string :=
  λ cls _ serialization_dir _, mret (cls +:+ ":" +:+ serialization_dir).

End Sample.

(** ** Properties of the constructor, [_move_to_gpu] and [train] *)

Import Trainer_base.

(** [allocation_dict is None or len(allocation_dict) == 0] in plain terms. *)
Lemma no_allocation_true (ad : option (gmap string Z)) :
  no_allocation ad = true <-> ad = None \/ ad = Some ∅.
Proof.
  destruct ad as [d|]; simpl.
  - rewrite Nat.eqb_eq, map_size_empty_iff. split.
    + intros ->. by right.
    + intros [?|?]; congruence.
  - split; [by left | done].
Qed.

Lemma no_allocation_false (ad : option (gmap string Z)) :
  no_allocation ad = false <-> exists d, ad = Some d /\ d ≠ ∅.
Proof.
  destruct ad as [d|]; simpl.
  - rewrite Nat.eqb_neq, map_size_ne_0_lookup. split.
    + intros [k Hk]. exists d. split; [done|].
      intros ->. rewrite lookup_empty in Hk. by destruct Hk.
    + intros (d' & [= <-] & Hne). by apply map_choose.
  - split; [done | by intros (d & ? & _)].
Qed.

Lemma type_check_passes (cd : pyval) :
  isinstance_int cd = true \/ isinstance_list cd = true ->
  check_cuda_device_type cd = Returns tt.
Proof.
  unfold check_cuda_device_type. intros [-> | ->]; simpl; [done|].
  by rewrite andb_false_r.
Qed.

Lemma type_check_fails (cd : pyval) :
  isinstance_int cd = false -> isinstance_list cd = false ->
  check_cuda_device_type cd =
    Raises (ConfigurationError
              "Expected an int or list for cuda_device, got {}" [cd]).
Proof. unfold check_cuda_device_type. by intros -> ->. Qed.

Section Constructor.

Variable check_for_gpu : pyval -> result unit.

(** What a returning constructor went through. *)
Lemma init_returns_inv sd cd ad t log :
  __init__ check_for_gpu sd cd ad = (Returns t, log) ->
  (isinstance_int cd = true \/ isinstance_list cd = true)
  /\ configure_gpus sd cd ad = (Returns t, log).
Proof.
  unfold __init__. destruct (check_for_gpu cd); [|done].
  unfold check_cuda_device_type.
  destruct (isinstance_int cd) eqn:Hi, (isinstance_list cd) eqn:Hl;
    simpl; intros H; try done; split; auto.
Qed.

(** C2, amended: a [cuda_device] that is neither an int nor a list makes the
    constructor raise [ConfigurationError]: the one of the type check when
    [check_for_gpu] returns, and in any case one as long as
    [check_for_gpu] raises nothing else; for an int or a list the type
    check passes, and once [check_for_gpu] returned the constructor does
    not raise [ConfigurationError]. *)
Theorem init_validates_cuda_device sd cd ad :
  (isinstance_int cd = false -> isinstance_list cd = false ->
     (check_for_gpu cd = Returns tt ->
        __init__ check_for_gpu sd cd ad =
          (Raises (ConfigurationError
                     "Expected an int or list for cuda_device, got {}" [cd]), []))
     /\ ((forall e, check_for_gpu cd = Raises e -> is_ConfigurationError e = true) ->
         exists e, __init__ check_for_gpu sd cd ad = (Raises e, [])
                   /\ is_ConfigurationError e = true))
  /\ (isinstance_int cd = true \/ isinstance_list cd = true ->
        check_cuda_device_type cd = Returns tt
        /\ (check_for_gpu cd = Returns tt ->
            forall e, fst (__init__ check_for_gpu sd cd ad) = Raises e ->
                      is_ConfigurationError e = false)).
Proof.
  split.
  - intros Hi Hl. unfold __init__. rewrite (type_check_fails _ Hi Hl). split.
    + by intros ->.
    + intros Hce. destruct (check_for_gpu cd) as [u|e] eqn:Hc; eauto.
  - intros Hty. split; [by apply type_check_passes|].
    intros Hc e. unfold __init__. rewrite Hc, (type_check_passes _ Hty).
    unfold configure_gpus.
    destruct cd; destruct (no_allocation ad); simpl; intros [= <-]; done.
Qed.

(** C6, amended: with an int [cuda_device] that [check_for_gpu] lets through, a
    non-empty [allocation_dict] raises the [AssertionError] of line 57, and
    [None] or the empty dictionary give a trainer. *)
Theorem init_single_gpu_allocation sd cd ad :
  isinstance_int cd = true -> check_for_gpu cd = Returns tt ->
  (forall d, ad = Some d -> d ≠ ∅ ->
     __init__ check_for_gpu sd cd ad =
       (Raises (AssertionError
                  "Should not specify GPU Allocation if only one GPU!"), []))
  /\ (ad = None \/ ad = Some ∅ ->
      __init__ check_for_gpu sd cd ad =
        (Returns (mkTrainerBase sd false [cd] None), [])).
Proof.
  intros Hi Hc. unfold __init__.
  rewrite Hc, (type_check_passes cd (or_introl Hi)). split.
  - intros d -> Hne.
    assert (no_allocation (Some d) = false) as Hna
      by (apply no_allocation_false; eauto).
    unfold configure_gpus. rewrite Hna. by destruct cd.
  - intros Hn. apply no_allocation_true in Hn.
    unfold configure_gpus. rewrite Hn. by destruct cd.
Qed.

(** C7: in a trainer the constructor returned, [_multiple_gpu] holds exactly
    for a list with no allocation, [_allocation_dict] is set exactly for a
    list with a non-empty allocation, so [_multiple_gpu] excludes an
    [_allocation_dict]; an int gives a single device, itself. *)
Theorem init_invariant sd cd ad t log :
  __init__ check_for_gpu sd cd ad = (Returns t, log) ->
  (_multiple_gpu t = true <->
     isinstance_list cd = true /\ (ad = None \/ ad = Some ∅))
  /\ (_allocation_dict t <> None <->
        isinstance_list cd = true /\ exists d, ad = Some d /\ d ≠ ∅)
  /\ (_multiple_gpu t = true -> _allocation_dict t = None)
  /\ (isinstance_int cd = true ->
        _multiple_gpu t = false /\ _cuda_devices t = [cd]).
Proof.
  intros H. apply init_returns_inv in H as [Hty H].
  rewrite <- no_allocation_true, <- no_allocation_false.
  unfold configure_gpus in H.
  destruct cd; destruct (no_allocation ad) eqn:Hna; simpl in *;
    try discriminate H; destruct Hty as [Hty|Hty]; try discriminate Hty;
    injection H as <- <-; simpl;
    repeat split; try done; try tauto; try (intros [? ?]; done).
  intros _ ->. discriminate Hna.
Qed.

End Constructor.

Section Devices.

Variable check_for_gpu : pyval -> result unit.
Variable Model : Type.
Variable cuda : Model -> pyval -> result Model.

(** The devices a returning constructor stores. *)
Lemma init_devices sd cd ad t log :
  __init__ check_for_gpu sd cd ad = (Returns t, log) ->
  _cuda_devices t = match cd with PList devices => devices | _ => [cd] end.
Proof.
  intros H. apply init_returns_inv in H as [_ H]. unfold configure_gpus in H.
  destruct cd; destruct (no_allocation ad);
    try discriminate H; by injection H as <- <-.
Qed.

(** C3, amended: a trainer built from an int or from a list that is not
    empty has a first device, and [_move_to_gpu] gets past its index access:
    its outcome is the one decided by that device. *)
Theorem init_devices_nonempty sd cd ad t log :
  __init__ check_for_gpu sd cd ad = (Returns t, log) ->
  cd <> PList [] ->
  _cuda_devices t <> []
  /\ forall model : Model, exists device rest,
       _cuda_devices t = device :: rest
       /\ _move_to_gpu cuda t model =
            (if ne_int device (-1) then cuda model device else Returns model, t).
Proof.
  intros H Hne. apply init_devices in H.
  assert (exists device rest, _cuda_devices t = device :: rest)
    as (device & rest & Hd).
  { rewrite H. destruct cd as [| | | |[|d ds]|]; eauto. done. }
  split; [by rewrite Hd|].
  intros model. exists device, rest. split; [done|].
  unfold _move_to_gpu. rewrite Hd. by destruct (ne_int device (-1)).
Qed.

(** C5, amended: with a first device, [_move_to_gpu] returns the model as it is when
    that device equals -1 and [model.cuda] of that device otherwise; the
    trainer comes back as it was, and a trainer with the same first device
    gives the same result, whatever its other attributes. *)
Theorem move_to_gpu_frame (self : TrainerBase) (model : Model) device rest :
  _cuda_devices self = device :: rest ->
  (ne_int device (-1) = false ->
     _move_to_gpu cuda self model = (Returns model, self))
  /\ (ne_int device (-1) = true ->
        _move_to_gpu cuda self model = (cuda model device, self))
  /\ snd (_move_to_gpu cuda self model) = self
  /\ (forall other : TrainerBase,
        _cuda_devices other !! 0%nat = Some device ->
        fst (_move_to_gpu cuda other model) = fst (_move_to_gpu cuda self model)).
Proof.
  intros Hd. unfold _move_to_gpu. rewrite Hd. repeat split.
  - by intros ->.
  - by intros ->.
  - by destruct (ne_int device (-1)).
  - intros other Ho. destruct (_cuda_devices other) as [|d ds]; [done|].
    injection Ho as ->. by destruct (ne_int device (-1)).
Qed.

End Devices.

(** C4: [train] of the base class raises [NotImplementedError], for every
    trainer, and so returns no result mapping. *)
Theorem train_not_implemented (self : TrainerBase) :
  train self = Raises NotImplementedError
  /\ forall metrics : gmap string pyval, train self <> Returns metrics.
Proof. split; [reflexivity | discriminate]. Qed.

(** C3 as stated fails on the empty list: the constructor takes it, keeps
    it as [_cuda_devices], and [_move_to_gpu] raises [IndexError]. *)
Lemma init_empty_device_list :
  exists t : TrainerBase,
    __init__ Sample.accept_devices "out" (PList []) None =
      (Returns t, [data_parallel_warning])
    /\ _cuda_devices t = []
    /\ _move_to_gpu Sample.placed_on t [] = (Raises IndexError, t).
Proof. eexists. repeat split. Qed.

(** ** Properties of [from_params] *)

Import Factory.

Lemma eq_str_false (v : pyval) (s : string) :
  v <> PStr s -> eq_str v s = false.
Proof.
  destruct v; simpl; try done. intros Hne.
  apply bool_decide_eq_false. congruence.
Qed.

Section Dispatch.

Context {Trainer Model Iterator Dataset TrainerClass : Type}.
Variable TrainerPieces_from_params :
  loc -> string -> bool -> M (Pieces.TrainerPieces Model Iterator Dataset).
Variable Trainer_from_params :
  Model -> string -> Iterator -> Dataset -> Dataset -> loc -> Iterator -> M Trainer.
Variable by_name : pyval -> result TrainerClass.
Variable class_from_params : TrainerClass -> loc -> string -> bool -> M Trainer.

Abbreviation from_params' :=
  (from_params TrainerPieces_from_params Trainer_from_params by_name
     class_from_params).
Abbreviation default_path :=
  (default_from_params TrainerPieces_from_params Trainer_from_params).
Abbreviation registered_path :=
  (registered_from_params by_name class_from_params).

(** The run of [from_params] up to its branch, when the configuration has a
    trainer dictionary. *)
Lemma from_params_with_trainer (h : store) p sd recover cfg t d :
  h !! p = Some cfg -> cfg !! "trainer" = Some (PRef t) -> h !! t = Some d ->
  from_params' p sd recover h =
    match d !! "type" with
    | Some v =>
        (if eq_str v "default" then default_path p sd recover
         else registered_path v p sd recover)
          (<[t := delete "type" d]> (h ++ [∅]))
    | None => default_path p sd recover (h ++ [∅])
    end.
Proof.
  intros Hp Htr Ht.
  unfold from_params, mbind, M_bind, new_dict, Params_get; simpl.
  rewrite (lookup_app_l_Some _ _ _ _ Hp), Htr; simpl.
  rewrite (lookup_app_l_Some _ _ _ _ Ht).
  by destruct (d !! "type").
Qed.

(** The same run when the configuration has no trainer entry: the new
    dictionary is the one popped from. *)
Lemma from_params_without_trainer (h : store) p sd recover cfg :
  h !! p = Some cfg -> cfg !! "trainer" = None ->
  from_params' p sd recover h = default_path p sd recover (h ++ [∅]).
Proof.
  intros Hp Htr.
  unfold from_params, mbind, M_bind, new_dict, Params_get; simpl.
  rewrite (lookup_app_l_Some _ _ _ _ Hp), Htr; simpl.
  by rewrite list_lookup_middle.
Qed.

(** C1: a trainer type other than ["default"] sends [from_params] to the
    class [by_name] finds for it, called on the same arguments, or to the
    exception [by_name] raises; without a type, in the trainer dictionary
    or for want of one, [from_params] takes the branch through
    [TrainerPieces] and [Trainer]. *)
Theorem from_params_dispatch (h : store) p sd recover cfg :
  h !! p = Some cfg ->
  (forall t d v,
     cfg !! "trainer" = Some (PRef t) -> h !! t = Some d ->
     d !! "type" = Some v -> v <> PStr "default" ->
     from_params TrainerPieces_from_params Trainer_from_params by_name
       class_from_params p sd recover h =
       let h' := <[t := delete "type" d]> (h ++ [∅]) in
       match by_name v with
       | Returns cls => class_from_params cls p sd recover h'
       | Raises e => (Raises e, h')
       end)
  /\ (forall t d,
        cfg !! "trainer" = Some (PRef t) -> h !! t = Some d ->
        d !! "type" = None ->
        from_params TrainerPieces_from_params Trainer_from_params by_name
          class_from_params p sd recover h =
          default_from_params TrainerPieces_from_params Trainer_from_params
            p sd recover (h ++ [∅]))
  /\ (cfg !! "trainer" = None ->
        from_params TrainerPieces_from_params Trainer_from_params by_name
          class_from_params p sd recover h =
          default_from_params TrainerPieces_from_params Trainer_from_params
            p sd recover (h ++ [∅])).
Proof.
  intros Hp. repeat split.
  - intros t d v Htr Ht Hty Hne.
    rewrite (from_params_with_trainer _ _ _ _ _ _ _ Hp Htr Ht), Hty.
    rewrite (eq_str_false _ _ Hne).
    unfold registered_from_params, mbind, M_bind, lift; simpl.
    by destruct (by_name v).
  - intros t d Htr Ht Hty.
    by rewrite (from_params_with_trainer _ _ _ _ _ _ _ Hp Htr Ht), Hty.
  - by apply from_params_without_trainer.
Qed.

(** C8: when the trainer dictionary has a ["type"] entry, the branch taken
    runs on the same [params] in a store where that dictionary has lost
    ["type"] and kept its other entries, and where every other object of
    the caller is as it was. *)
Theorem from_params_pops_type (h : store) p sd recover cfg t d v :
  h !! p = Some cfg -> cfg !! "trainer" = Some (PRef t) -> h !! t = Some d ->
  d !! "type" = Some v ->
  exists (h' : store) (d' : dict),
    from_params TrainerPieces_from_params Trainer_from_params by_name
      class_from_params p sd recover h =
      (if eq_str v "default"
       then default_from_params TrainerPieces_from_params Trainer_from_params
              p sd recover
       else registered_from_params by_name class_from_params v p sd recover) h'
    /\ h' !! t = Some d'
    /\ d' !! "type" = None
    /\ (forall k, k <> "type" -> d' !! k = d !! k)
    /\ (forall l, l <> t -> (l < length h)%nat -> h' !! l = h !! l).
Proof.
  intros Hp Htr Ht Hty.
  exists (<[t := delete "type" d]> (h ++ [∅])), (delete "type" d).
  rewrite (from_params_with_trainer _ _ _ _ _ _ _ Hp Htr Ht), Hty.
  split; [done|]. split.
  { apply list_lookup_insert_eq. rewrite length_app.
    apply lookup_lt_Some in Ht. lia. }
  split; [apply lookup_delete_eq|]. split.
  { intros k Hk. by apply lookup_delete_ne. }
  intros l Hl Hlt. rewrite list_lookup_insert_ne by done.
  by apply lookup_app_l.
Qed.

End Dispatch.

(** ** The properties at the sample inputs *)

Import Sample.

Lemma init_validates_cuda_device_witness :
  __init__ accept_devices "out" (PStr "0") None =
    (Raises (ConfigurationError
               "Expected an int or list for cuda_device, got {}" [PStr "0"]), [])
  /\ check_cuda_device_type (PList [PInt 0; PInt 1]) = Returns tt.
Proof.
  split.
  - destruct (init_validates_cuda_device accept_devices "out" (PStr "0") None)
      as [H _].
    destruct (H eq_refl eq_refl) as [H1 _]. exact (H1 eq_refl).
  - destruct (init_validates_cuda_device accept_devices "out"
                (PList [PInt 0; PInt 1]) None) as [_ H].
    destruct (H (or_intror eq_refl)) as [H1 _]. exact H1.
Defined.

Lemma allocation_not_empty : allocation ≠ ∅.
Proof.
  intros H. apply (f_equal (λ m : gmap string Z, m !! "encoder")) in H.
  vm_compute in H. discriminate H.
Defined.

Lemma init_single_gpu_allocation_witness :
  __init__ accept_devices "out" (PInt 0) (Some allocation) =
    (Raises (AssertionError
               "Should not specify GPU Allocation if only one GPU!"), [])
  /\ __init__ accept_devices "out" (PInt 0) (Some ∅) =
       (Returns (mkTrainerBase "out" false [PInt 0] None), []).
Proof.
  split.
  - destruct (init_single_gpu_allocation accept_devices "out" (PInt 0)
                (Some allocation) eq_refl eq_refl) as [H _].
    exact (H allocation eq_refl allocation_not_empty).
  - destruct (init_single_gpu_allocation accept_devices "out" (PInt 0)
                (Some ∅) eq_refl eq_refl) as [_ H].
    exact (H (or_intror eq_refl)).
Defined.

Lemma init_invariant_witness :
  let t := mkTrainerBase "out" false [PInt 0; PInt 1] (Some allocation) in
  (_multiple_gpu t = true <->
     isinstance_list (PList [PInt 0; PInt 1]) = true
     /\ (Some allocation = None \/ Some allocation = Some ∅))
  /\ (_allocation_dict t <> None <->
        isinstance_list (PList [PInt 0; PInt 1]) = true
        /\ exists d, Some allocation = Some d /\ d ≠ ∅)
  /\ (_multiple_gpu t = true -> _allocation_dict t = None)
  /\ (isinstance_int (PList [PInt 0; PInt 1]) = true ->
        _multiple_gpu t = false /\ _cuda_devices t = [PList [PInt 0; PInt 1]]).
Proof.
  exact (init_invariant accept_devices "out" (PList [PInt 0; PInt 1])
           (Some allocation) _ [] eq_refl).
Defined.

Lemma init_devices_nonempty_witness :
  let t := mkTrainerBase "out" false [PInt 0] None in
  _cuda_devices t <> []
  /\ forall model : list pyval, exists device rest,
       _cuda_devices t = device :: rest
       /\ _move_to_gpu placed_on t model =
            (if ne_int device (-1) then placed_on model device
             else Returns model, t).
Proof.
  refine (init_devices_nonempty accept_devices (list pyval) placed_on "out"
            (PInt 0) None _ [] eq_refl _).
  discriminate.
Defined.

Lemma move_to_gpu_frame_witness :
  let cpu := mkTrainerBase "out" false [PInt (-1)] None in
  let gpu := mkTrainerBase "out" true [PInt 1; PInt 0] None in
  _move_to_gpu placed_on cpu [] = (Returns [], cpu)
  /\ _move_to_gpu placed_on gpu [] = (Returns [PInt 1], gpu).
Proof.
  intros cpu gpu. split.
  - destruct (move_to_gpu_frame (list pyval) placed_on cpu [] (PInt (-1)) []
                eq_refl) as [H _].
    exact (H eq_refl).
  - destruct (move_to_gpu_frame (list pyval) placed_on gpu [] (PInt 1) [PInt 0]
                eq_refl) as (_ & H & _).
    exact (H eq_refl).
Defined.

Lemma from_params_dispatch_witness :
  from_params pieces_of trainer_of registry registered_trainer_of
    0%nat "out" false config =
    (Returns "CallbackTrainer:out",
     <[1%nat := delete "type" trainer_config]> (config ++ [∅]))
  /\ from_params pieces_of trainer_of registry registered_trainer_of
       0%nat "out" false untyped_config =
       (Returns "Trainer:out", untyped_config ++ [∅])
  /\ from_params pieces_of trainer_of registry registered_trainer_of
       0%nat "out" false bare_config =
       (Returns "Trainer:out", bare_config ++ [∅]).
Proof.
  split; [|split].
  - destruct (from_params_dispatch pieces_of trainer_of registry
                registered_trainer_of config 0%nat "out" false _ eq_refl)
      as [H _].
    refine (H 1%nat trainer_config (PStr "callback") eq_refl eq_refl eq_refl _).
    discriminate.
  - destruct (from_params_dispatch pieces_of trainer_of registry
                registered_trainer_of untyped_config 0%nat "out" false _ eq_refl)
      as (_ & H & _).
    exact (H 1%nat _ eq_refl eq_refl eq_refl).
  - destruct (from_params_dispatch pieces_of trainer_of registry
                registered_trainer_of bare_config 0%nat "out" false _ eq_refl)
      as (_ & _ & H).
    exact (H eq_refl).
Defined.

Lemma from_params_pops_type_witness :
  exists (h' : store) (d' : dict),
    from_params pieces_of trainer_of registry registered_trainer_of
      0%nat "out" false config = (Returns "CallbackTrainer:out", h')
    /\ h' !! 1%nat = Some d'
    /\ d' !! "type" = None
    /\ (forall k, k <> "type" -> d' !! k = trainer_config !! k)
    /\ (forall l, l <> 1%nat -> (l < length config)%nat -> h' !! l = config !! l).
Proof.
  destruct (from_params_pops_type pieces_of trainer_of registry
              registered_trainer_of config 0%nat "out" false _ 1%nat
              trainer_config (PStr "callback") eq_refl eq_refl eq_refl eq_refl)
    as (h' & d' & H & Hrest).
  exists h', d'. split; [exact H | exact Hrest].
Defined.

(** ** Further properties of the constructor *)

Section ConstructorOutcomes.

Variable check_for_gpu : pyval -> result unit.

(** The constructor returns exactly when [check_for_gpu] returns and
    [cuda_device] is a list, or an int that comes with no allocation. *)
Theorem init_returns_iff sd cd ad :
  (exists t log, __init__ check_for_gpu sd cd ad = (Returns t, log)) <->
  check_for_gpu cd = Returns tt
  /\ (isinstance_list cd = true
      \/ (isinstance_int cd = true /\ (ad = None \/ ad = Some ∅))).
Proof.
  rewrite <- no_allocation_true. unfold __init__, check_cuda_device_type.
  destruct (check_for_gpu cd) as [[]|e].
  - unfold configure_gpus.
    destruct cd; destruct (no_allocation ad); simpl; split;
      try (intros (t & log & H); first [discriminate H | split; [done|]; auto]);
      try (intros [_ [H|[H H']]]; first [discriminate | eauto]).
  - split.
    + intros (t & log & H). discriminate H.
    + intros [H _]. discriminate H.
Qed.

(** The constructor raises in three ways only, in this order: the exception
    of [check_for_gpu]; the [ConfigurationError] of the type check; the
    [AssertionError] of an int with an allocation.  Nothing has been logged
    by then. *)
Theorem init_raises_iff sd cd ad e log :
  __init__ check_for_gpu sd cd ad = (Raises e, log) <->
  log = []
  /\ (check_for_gpu cd = Raises e
      \/ (check_for_gpu cd = Returns tt
          /\ isinstance_int cd = false /\ isinstance_list cd = false
          /\ e = ConfigurationError
                   "Expected an int or list for cuda_device, got {}" [cd])
      \/ (check_for_gpu cd = Returns tt
          /\ isinstance_int cd = true
          /\ (exists d, ad = Some d /\ d ≠ ∅)
          /\ e = AssertionError
                   "Should not specify GPU Allocation if only one GPU!")).
Proof.
  rewrite <- no_allocation_false. unfold __init__, check_cuda_device_type.
  destruct (check_for_gpu cd) as [[]|e'].
  - unfold configure_gpus.
    destruct cd; destruct (no_allocation ad); simpl; split;
      try (intros H;
           first [discriminate H
                 | injection H as <- <-; split; [done|]; right; auto 10]);
      try (intros [-> [H|[(_ & H1 & H2 & H3)|(_ & H1 & H2 & H3)]]];
           first [done | congruence]).
  - split.
    + intros [= <- <-]. auto.
    + intros [-> [[= ->]|[(H & _)|(H & _)]]]; done.
Qed.

(** The data-parallel warning is logged exactly by the constructions that
    end in [_multiple_gpu]; the others log nothing. *)
Theorem init_warning sd cd ad t log :
  __init__ check_for_gpu sd cd ad = (Returns t, log) ->
  log = if _multiple_gpu t then [data_parallel_warning] else [].
Proof.
  intros H. apply init_returns_inv in H as [_ H]. unfold configure_gpus in H.
  destruct cd; destruct (no_allocation ad);
    try discriminate H; by injection H as <- <-.
Qed.

(** The constructor keeps its arguments as they are: the directory; a list
    of devices with its order and its repetitions, whatever its elements;
    and the allocation, which is never made up. *)
Theorem init_stores_arguments sd cd ad t log :
  __init__ check_for_gpu sd cd ad = (Returns t, log) ->
  _serialization_dir t = sd
  /\ (forall devices, cd = PList devices -> _cuda_devices t = devices)
  /\ (forall d, _allocation_dict t = Some d -> ad = Some d).
Proof.
  intros H. apply init_returns_inv in H as [_ H]. unfold configure_gpus in H.
  destruct cd; destruct (no_allocation ad);
    try discriminate H; injection H as <- <-; simpl;
    repeat split; try done; by intros ? [= ->].
Qed.

End ConstructorOutcomes.

Section Placement.

Variable check_for_gpu : pyval -> result unit.
Variable Model : Type.
Variable cuda : Model -> pyval -> result Model.

(** A trainer built from the int [-1] hands the model back untouched; built
    from any other int it calls [model.cuda] with that int; built from
    [True] or [False], which pass for ints, it calls [model.cuda] with the
    boolean. *)
Theorem int_device_placement sd ad t log (model : Model) :
  (forall z, __init__ check_for_gpu sd (PInt z) ad = (Returns t, log) ->
     _move_to_gpu cuda t model =
       (if z =? -1 then Returns model else cuda model (PInt z), t))
  /\ (forall b, __init__ check_for_gpu sd (PBool b) ad = (Returns t, log) ->
        _move_to_gpu cuda t model = (cuda model (PBool b), t)).
Proof.
  split.
  - intros z H. apply init_devices in H. unfold _move_to_gpu. rewrite H. simpl.
    by destruct (z =? -1).
  - intros b H. apply init_devices in H. unfold _move_to_gpu. rewrite H.
    by destruct b.
Qed.

(** A trainer built from a list places the model by the head of the list
    alone: the other devices, the allocation and the mode play no part. *)
Theorem list_device_placement sd device devices ad t log (model : Model) :
  __init__ check_for_gpu sd (PList (device :: devices)) ad = (Returns t, log) ->
  _move_to_gpu cuda t model =
    (if ne_int device (-1) then cuda model device else Returns model, t).
Proof.
  intros H. apply init_devices in H. unfold _move_to_gpu. rewrite H.
  by destruct (ne_int device (-1)).
Qed.

(** Wherever [check_for_gpu] lets the empty list through, the constructor
    returns a trainer for it, with any allocation, and [_move_to_gpu] of
    that trainer raises [IndexError] for every model. *)
Theorem empty_list_index_error sd ad :
  check_for_gpu (PList []) = Returns tt ->
  exists t log,
    __init__ check_for_gpu sd (PList []) ad = (Returns t, log)
    /\ forall model : Model, _move_to_gpu cuda t model = (Raises IndexError, t).
Proof.
  intros Hc. unfold __init__. rewrite Hc. simpl.
  destruct (no_allocation ad); eauto.
Qed.

End Placement.

(** ** Further properties of [from_params] *)

Section Branches.

Context {Trainer Model Iterator Dataset TrainerClass : Type}.
Variable TrainerPieces_from_params :
  loc -> string -> bool -> M (Pieces.TrainerPieces Model Iterator Dataset).
Variable Trainer_from_params :
  Model -> string -> Iterator -> Dataset -> Dataset -> loc -> Iterator -> M Trainer.
Variable by_name : pyval -> result TrainerClass.
Variable class_from_params : TrainerClass -> loc -> string -> bool -> M Trainer.

(** A trainer entry that is no dictionary stops [from_params] at its
    [pop]: [TypeError] for a list, [AttributeError] for any other value.
    No branch is entered and the caller's dictionaries are as they were. *)
Theorem from_params_trainer_not_dict (h : store) p sd recover cfg v :
  h !! p = Some cfg -> cfg !! "trainer" = Some v -> (forall l, v <> PRef l) ->
  from_params TrainerPieces_from_params Trainer_from_params by_name
    class_from_params p sd recover h =
    (Raises (if isinstance_list v then TypeError else AttributeError),
     h ++ [∅]).
Proof.
  intros Hp Htr Hv.
  unfold from_params, mbind, M_bind, new_dict, Params_get; simpl.
  rewrite (lookup_app_l_Some _ _ _ _ Hp), Htr; simpl.
  destruct v; try done. by destruct (Hv l).
Qed.

(** A trainer type spelled out as ["default"] is popped like any other and
    leads to the branch through [TrainerPieces] and [Trainer], not to the
    registry. *)
Theorem from_params_explicit_default (h : store) p sd recover cfg t d :
  h !! p = Some cfg -> cfg !! "trainer" = Some (PRef t) -> h !! t = Some d ->
  d !! "type" = Some (PStr "default") ->
  from_params TrainerPieces_from_params Trainer_from_params by_name
    class_from_params p sd recover h =
    default_from_params TrainerPieces_from_params Trainer_from_params
      p sd recover (<[t := delete "type" d]> (h ++ [∅])).
Proof.
  intros Hp Htr Ht Hty.
  by rewrite (from_params_with_trainer _ _ _ _ _ _ _ _ _ _ _ Hp Htr Ht), Hty.
Qed.

(** A registered class that inherits [from_params] is not built as that
    class: the inherited call finds the type already popped and takes the
    branch through [TrainerPieces] and [Trainer], whatever the registry
    holds beyond. *)
Theorem from_params_inherited (h : store) p sd recover cfg t d v cls :
  h !! p = Some cfg -> cfg !! "trainer" = Some (PRef t) -> h !! t = Some d ->
  d !! "type" = Some v -> v <> PStr "default" -> by_name v = Returns cls ->
  from_params TrainerPieces_from_params Trainer_from_params by_name
    (inherited_from_params TrainerPieces_from_params Trainer_from_params
       by_name class_from_params) p sd recover h =
    default_from_params TrainerPieces_from_params Trainer_from_params
      p sd recover (<[t := delete "type" d]> (h ++ [∅]) ++ [∅]).
Proof.
  intros Hp Htr Ht Hty Hne Hcls.
  rewrite (from_params_with_trainer _ _ _ _ _ _ _ _ _ _ _ Hp Htr Ht), Hty.
  rewrite (eq_str_false _ _ Hne).
  unfold registered_from_params, mbind, M_bind, lift; simpl. rewrite Hcls.
  unfold inherited_from_params.
  pose proof (lookup_lt_Some _ _ _ Ht) as Hlt.
  assert (<[t := delete "type" d]> (h ++ [∅]) !! t = Some (delete "type" d))
    as Ht'.
  { apply list_lookup_insert_eq. rewrite length_app. lia. }
  assert (exists cfg', <[t := delete "type" d]> (h ++ [∅]) !! p = Some cfg'
                       /\ cfg' !! "trainer" = Some (PRef t))
    as (cfg' & Hp' & Htr').
  { destruct (decide (t = p)) as [->|Hneq].
    - exists (delete "type" d). split; [done|].
      rewrite lookup_delete_ne by done. congruence.
    - exists cfg. split; [|done].
      rewrite list_lookup_insert_ne by done.
      by apply lookup_app_l_Some. }
  rewrite (from_params_with_trainer _ _ _ _ _ _ _ _ _ _ _ Hp' Htr' Ht').
  by rewrite lookup_delete_eq.
Qed.

End Branches.

(** ** The further properties at the sample inputs *)

Lemma init_returns_iff_witness :
  exists t log,
    __init__ accept_devices "out" (PList [PInt 0; PInt 1]) (Some allocation) =
      (Returns t, log).
Proof.
  apply (init_returns_iff accept_devices "out" (PList [PInt 0; PInt 1])
           (Some allocation)).
  split; [reflexivity | left; reflexivity].
Defined.

Lemma init_raises_iff_witness :
  __init__ accept_devices "out" (PInt 0) (Some allocation) =
    (Raises (AssertionError
               "Should not specify GPU Allocation if only one GPU!"), []).
Proof.
  apply (init_raises_iff accept_devices "out" (PInt 0) (Some allocation)).
  split; [reflexivity|]. right; right.
  repeat split; try reflexivity.
  exists allocation. split; [reflexivity | exact allocation_not_empty].
Defined.

Lemma init_warning_witness :
  [data_parallel_warning] =
    if _multiple_gpu (mkTrainerBase "out" true [PInt 0; PInt 1] None)
    then [data_parallel_warning] else [].
Proof.
  exact (init_warning accept_devices "out" (PList [PInt 0; PInt 1]) None
           _ _ eq_refl).
Defined.

Lemma init_stores_arguments_witness :
  let t := mkTrainerBase "out" false [PInt 1; PInt 1; PInt 0] (Some allocation) in
  _serialization_dir t = "out"
  /\ (forall devices, PList [PInt 1; PInt 1; PInt 0] = PList devices ->
        _cuda_devices t = devices)
  /\ (forall d, _allocation_dict t = Some d -> Some allocation = Some d).
Proof.
  exact (init_stores_arguments accept_devices "out"
           (PList [PInt 1; PInt 1; PInt 0]) (Some allocation) _ [] eq_refl).
Defined.

Lemma int_device_placement_witness :
  _move_to_gpu placed_on (mkTrainerBase "out" false [PInt (-1)] None) [] =
    (Returns [], mkTrainerBase "out" false [PInt (-1)] None)
  /\ _move_to_gpu placed_on (mkTrainerBase "out" false [PBool true] None) [] =
       (Returns [PBool true], mkTrainerBase "out" false [PBool true] None).
Proof.
  split.
  - destruct (int_device_placement accept_devices (list pyval) placed_on "out"
                None (mkTrainerBase "out" false [PInt (-1)] None) [] [])
      as [H _].
    exact (H (-1) eq_refl).
  - destruct (int_device_placement accept_devices (list pyval) placed_on "out"
                None (mkTrainerBase "out" false [PBool true] None) [] [])
      as [_ H].
    exact (H true eq_refl).
Defined.

Lemma list_device_placement_witness :
  let t := mkTrainerBase "out" true [PInt (-1); PInt 0] None in
  _move_to_gpu placed_on t [] = (Returns [], t).
Proof.
  exact (list_device_placement accept_devices (list pyval) placed_on "out"
           (PInt (-1)) [PInt 0] None _ _ [] eq_refl).
Defined.

Lemma empty_list_index_error_witness :
  exists t log,
    __init__ accept_devices "out" (PList []) (Some allocation) = (Returns t, log)
    /\ forall model : list pyval,
         _move_to_gpu placed_on t model = (Raises IndexError, t).
Proof.
  exact (empty_list_index_error accept_devices (list pyval) placed_on "out"
           (Some allocation) eq_refl).
Defined.

Lemma from_params_trainer_not_dict_witness :
  from_params pieces_of trainer_of registry registered_trainer_of
    0%nat "out" false scalar_config =
    (Raises AttributeError, scalar_config ++ [∅]).
Proof.
  refine (from_params_trainer_not_dict pieces_of trainer_of registry
            registered_trainer_of scalar_config 0%nat "out" false _
            (PStr "callback") eq_refl eq_refl _).
  discriminate.
Defined.

Lemma from_params_explicit_default_witness :
  from_params pieces_of trainer_of registry registered_trainer_of
    0%nat "out" false default_config =
    (Returns "Trainer:out",
     <[1%nat := {[ "num_epochs" := PInt 3 ]}]> (default_config ++ [∅])).
Proof.
  exact (from_params_explicit_default pieces_of trainer_of registry
           registered_trainer_of default_config 0%nat "out" false _ 1%nat _
           eq_refl eq_refl eq_refl eq_refl).
Defined.

Lemma from_params_inherited_witness :
  from_params pieces_of trainer_of registry
    (inherited_from_params pieces_of trainer_of registry registered_trainer_of)
    0%nat "out" false config =
    (Returns "Trainer:out",
     <[1%nat := delete "type" trainer_config]> (config ++ [∅]) ++ [∅]).
Proof.
  refine (from_params_inherited pieces_of trainer_of registry
            registered_trainer_of config 0%nat "out" false _ 1%nat
            trainer_config (PStr "callback") "CallbackTrainer"
            eq_refl eq_refl eq_refl eq_refl _ eq_refl).
  discriminate.
Defined.

(** ** Where the constructor and [_move_to_gpu] depart from a plain reading *)

(** C2 as stated fails where [check_for_gpu] raises something else first:
    on the machine with no GPU the string ["0"], neither an int nor a list,
    ends the constructor in [TypeError] at line 33, before the type check. *)
Lemma init_string_device_type_error :
  isinstance_int (PStr "0") = false
  /\ isinstance_list (PStr "0") = false
  /\ __init__ no_gpu_check "out" (PStr "0") None = (Raises TypeError, [])
  /\ is_ConfigurationError TypeError = false.
Proof. repeat split. Qed.

(** C6 as stated fails for an int that [check_for_gpu] refuses: on the
    machine with no GPU, device 0 with an allocation ends the constructor in
    the [ConfigurationError] of line 33, not in the [AssertionError], and
    device 0 without an allocation does not give a trainer either. *)
Lemma init_refused_device_no_assertion :
  isinstance_int (PInt 0) = true
  /\ __init__ no_gpu_check "out" (PInt 0) (Some allocation) =
       (Raises (ConfigurationError
                  "Experiment specified a GPU but none is available" []), [])
  /\ fst (__init__ no_gpu_check "out" (PInt 0) (Some allocation)) <>
       Raises (AssertionError
                 "Should not specify GPU Allocation if only one GPU!")
  /\ forall t, fst (__init__ no_gpu_check "out" (PInt 0) None) <> Returns t.
Proof. repeat split; discriminate. Qed.

(** C5 as stated fails on the trainer built from the empty list: it has no
    first device, and [_move_to_gpu] neither returns the model nor the
    result of [model.cuda], it raises [IndexError]. *)
Lemma move_to_gpu_without_device :
  exists t : TrainerBase,
    fst (__init__ accept_devices "out" (PList []) None) = Returns t
    /\ fst (_move_to_gpu placed_on t []) = Raises IndexError
    /\ fst (_move_to_gpu placed_on t []) <> Returns []
    /\ forall device, fst (_move_to_gpu placed_on t []) <> placed_on [] device.
Proof. eexists. repeat split; discriminate. Qed.
